(** * The matrix display cell of [content/ch-gates/quantum-gates.ipynb]

    The notebook's "Composite gates" cell obtains the unitary of a two-qubit
    circuit and turns it into LaTeX:

<<
    gate_latex = '\\begin{pmatrix}'
    for line in gate:
        for element in line:
            gate_latex += str(element) + '&'
        gate_latex  = gate_latex[0:-1]
        gate_latex +=  '\\\\'
    gate_latex  = gate_latex[0:-2]
    gate_latex += '\end{pmatrix}'
    display(Markdown(gate_latex))
>>

    Python strings are modelled as [string], the matrix as a list of rows,
    and the conversion [str] of an element as a parameter of the development
    (it is a builtin of the language, not code of the notebook).  A model of
    [str] on complex numbers with integer parts is given for the concrete
    matrices the notebook displays. *)

From Stdlib Require Import List Arith Lia Bool NArith ZArith.
From Stdlib Require Import Strings.Ascii Strings.String Numbers.DecimalString.
Import ListNotations.

Local Open Scope list_scope.
Local Open Scope string_scope.

(** ** Python string operations used by the cell *)

Module PyStr.

(** [s[0:-k]] for a positive literal [k]: the stop index [len(s) - k] is
    clamped at [0], so a string shorter than [k] becomes empty. *)
Definition slice_0_neg (k : nat) (s : string) : string :=
  substring 0 (length s - k) s.

(** [c in s] for a one-character string [c]. *)
Fixpoint mem_char (c : ascii) (s : string) : bool :=
  match s with
  | EmptyString => false
  | String a s' => Ascii.eqb a c || mem_char c s'
  end.

(** [s.removeprefix(p)], with [None] when [s] does not start with [p]. *)
Fixpoint removeprefix (p s : string) : option string :=
  match p, s with
  | EmptyString, _ => Some s
  | String a p', String b s' =>
      if Ascii.eqb a b then removeprefix p' s' else None
  | String _ _, EmptyString => None
  end.

(** [s.endswith(q)]. *)
Definition endswith (q s : string) : bool :=
  (length q <=? length s)%nat
  && String.eqb (substring (length s - length q) (length q) s) q.

(** [s.removesuffix(q)], with [None] when [s] does not end with [q]. *)
Definition removesuffix (q s : string) : option string :=
  if endswith q s then Some (substring 0 (length s - length q) s) else None.

(** [s.split(sep)] for a non-empty [sep]: the scan goes left to right,
    [cur] is the piece being read and [skip] counts the characters of a
    separator that was just matched and is still to be passed over. *)
Fixpoint split_from (sep : string) (skip : nat) (cur s : string)
  : list string :=
  match s with
  | EmptyString => [cur]
  | String c s' =>
      match skip with
      | S k => split_from sep k cur s'
      | O =>
          if prefix sep s
          then cur :: split_from sep (length sep - 1) EmptyString s'
          else split_from sep 0 (cur ++ String c EmptyString) s'
      end
  end.

Definition split (sep s : string) : list string :=
  split_from sep 0 EmptyString s.

(** [s.count(sep)] for a non-empty [sep]: occurrences that do not
    overlap, found left to right. *)
Fixpoint count_from (sep : string) (skip : nat) (s : string) : nat :=
  match s with
  | EmptyString => 0
  | String c s' =>
      match skip with
      | S k => count_from sep k s'
      | O =>
          if prefix sep s
          then S (count_from sep (length sep - 1) s')
          else count_from sep 0 s'
      end
  end.

Definition count (sep s : string) : nat := count_from sep 0 s.

End PyStr.

(** ** [str] on complex numbers with integer parts *)

Module PyComplex.

(** A double whose value is an integer: sign bit and magnitude.  The sign
    bit is kept apart because IEEE zero is signed and [str] looks at it. *)
Record pyfloat : Type := mkfloat { negative : bool; magnitude : N }.

Record complex : Type := mkcomplex { real : pyfloat; imag : pyfloat }.

Definition of_Z (z : Z) : pyfloat :=
  mkfloat (Z.ltb z 0) (Z.abs_N z).

(** The complex number [re + 0j]. *)
Definition of_real (re : Z) : complex := mkcomplex (of_Z re) (of_Z 0).

Definition digits (n : N) : string :=
  NilEmpty.string_of_uint (N.to_uint n).

(** [repr] of an integer-valued double without the trailing [.0], as the
    complex conversion asks for it; [always_sign] is the flag that forces
    a [+] on non-negative values.  Magnitudes stay below [10^16], where
    [repr] has not yet switched to exponent notation. *)
Definition double_to_string (always_sign : bool) (x : pyfloat) : string :=
  (if negative x then "-" else if always_sign then "+" else "")
  ++ digits (magnitude x).

(** The integers a double holds without gaps reach [2^53], which is below
    [10^16]: up to there every magnitude is a double and is printed in
    plain digits. *)
Definition exact_double (x : pyfloat) : bool :=
  N.leb (magnitude x) (2 ^ 53).

Definition is_positive_zero (x : pyfloat) : bool :=
  N.eqb (magnitude x) 0 && negb (negative x).

(** [str(z)]: a real part that is [+0] is left out together with the
    parentheses, otherwise both parts are printed inside parentheses. *)
Definition str (z : complex) : string :=
  if is_positive_zero (real z)
  then double_to_string false (imag z) ++ "j"
  else "(" ++ double_to_string false (real z)
           ++ double_to_string true (imag z) ++ "j)".

(** Both parts of [z] are in the range where [str] above is Python's. *)
Definition exact (z : complex) : bool :=
  exact_double (real z) && exact_double (imag z).

End PyComplex.

(** ** The cell *)

Section Cell.

Variable Elem : Type.
(** Python's [str] on a matrix element. *)
Variable str : Elem -> string.

Definition Matrix : Type := list (list Elem).

Definition begin_pmatrix : string := "\begin{pmatrix}".
Definition end_pmatrix : string := "\end{pmatrix}".
Definition col_delim : string := "&".
Definition row_delim : string := "\\".

(** Body of the inner loop: [gate_latex += str(element) + '&']. *)
Definition add_element (acc : string) (element : Elem) : string :=
  acc ++ (str element ++ col_delim).

(** Body of the outer loop: the inner loop over [line], then
    [gate_latex = gate_latex[0:-1]] and [gate_latex += '\\\\']. *)
Definition add_line (acc : string) (line : list Elem) : string :=
  let acc1 := fold_left add_element line acc in
  let acc2 := PyStr.slice_0_neg 1 acc1 in
  acc2 ++ row_delim.

(** The value of the variable [gate_latex] when the cell reaches
    [display], as a function of [gate]. *)
Definition gate_latex (gate : Matrix) : string :=
  let acc0 := begin_pmatrix in
  let acc1 := fold_left add_line gate acc0 in
  let acc2 := PyStr.slice_0_neg 2 acc1 in
  acc2 ++ end_pmatrix.

(** *** The cell as a run over the notebook's names *)

(** The names the cell reads and binds, and what it has sent to
    [display].  [v_gate_latex] is whatever the name held before the run;
    the loop variables are [None] while unbound. *)
Record namespace : Type := mkns {
  v_gate : Matrix;
  v_gate_latex : string;
  v_line : option (list Elem);
  v_element : option Elem;
  v_displayed : list string
}.

Definition set_gate_latex (s : string) (ns : namespace) : namespace :=
  mkns (v_gate ns) s (v_line ns) (v_element ns) (v_displayed ns).

(** One round of [for element in line]. *)
Definition exec_element (ns : namespace) (element : Elem) : namespace :=
  let ns1 :=
    mkns (v_gate ns) (v_gate_latex ns) (v_line ns) (Some element)
         (v_displayed ns) in
  set_gate_latex (v_gate_latex ns1 ++ (str element ++ col_delim)) ns1.

(** One round of [for line in gate]. *)
Definition exec_line (ns : namespace) (line : list Elem) : namespace :=
  let ns1 :=
    mkns (v_gate ns) (v_gate_latex ns) (Some line) (v_element ns)
         (v_displayed ns) in
  let ns2 := fold_left exec_element line ns1 in
  let ns3 := set_gate_latex (PyStr.slice_0_neg 1 (v_gate_latex ns2)) ns2 in
  set_gate_latex (v_gate_latex ns3 ++ row_delim) ns3.

(** [display(Markdown(gate_latex))]. *)
Definition exec_display (ns : namespace) : namespace :=
  mkns (v_gate ns) (v_gate_latex ns) (v_line ns) (v_element ns)
       (v_displayed ns ++ [v_gate_latex ns]).

(** The nine lines of the cell, in order. *)
Definition run_cell (ns : namespace) : namespace :=
  let ns1 := set_gate_latex begin_pmatrix ns in
  let ns2 := fold_left exec_line (v_gate ns1) ns1 in
  let ns3 := set_gate_latex (PyStr.slice_0_neg 2 (v_gate_latex ns2)) ns2 in
  let ns4 := set_gate_latex (v_gate_latex ns3 ++ end_pmatrix) ns3 in
  exec_display ns4.

(** *** The cell as the operation [format] of the specification *)

(** The only error the specification names.  The cell has no [raise] and
    no test on the shape of [gate]: no run constructs it. *)
Inductive error : Type := InvalidShapeError.

Inductive outcome : Type :=
| Returned (s : string)
| Raised (e : error).

Definition format (gate : Matrix) : outcome := Returned (gate_latex gate).

(** *** Shape of a matrix *)

Definition rows (gate : Matrix) : nat := List.length gate.
Definition cols (gate : Matrix) : nat := List.length (hd [] gate).

Definition rectangular (gate : Matrix) : bool :=
  forallb (fun line => Nat.eqb (List.length line) (cols gate)) gate.

Definition nonempty_row (line : list Elem) : bool :=
  match line with [] => false | _ :: _ => true end.

(** [s] contains no character of a delimiter. *)
Definition delimiter_free (s : string) : bool :=
  negb (PyStr.mem_char "&"%char s) && negb (PyStr.mem_char "\"%char s).

(** No rendered element of [gate] contains a character of a delimiter. *)
Definition clean (gate : Matrix) : bool :=
  forallb (forallb (fun element => delimiter_free (str element))) gate.

(** *** The output row by row *)

(** A row as the specification displays it: its entries with the column
    delimiter between them. *)
Definition row_text (line : list Elem) : string :=
  String.concat col_delim (map str line).

(** What a row after the first adds to the output: the row delimiter and
    the row, or, for a row without elements, a single backslash. *)
Definition later_row (line : list Elem) : string :=
  match line with
  | [] => "\"
  | _ :: _ => row_delim ++ row_text line
  end.

Definition later_rows (rest : list (list Elem)) : string :=
  fold_right (fun line s => later_row line ++ s) "" rest.

(** What the first row leaves in front of the later ones: the prefix and
    the row, or, for a row without elements, the prefix short of its
    closing brace. *)
Definition first_row (line : list Elem) : string :=
  match line with
  | [] => "\begin{pmatrix"
  | _ :: _ => begin_pmatrix ++ row_text line
  end.

(** The output of the cell written row by row, without the loop. *)
Definition row_by_row (gate : Matrix) : string :=
  match gate with
  | [] => "\begin{pmatri"
  | line :: rest => first_row line ++ later_rows rest
  end ++ end_pmatrix.

(** *** Reading the output back, in the words of the specification *)

(** The output with the fixed prefix and suffix stripped. *)
Definition body_of (s : string) : option string :=
  match PyStr.removeprefix begin_pmatrix s with
  | Some t => PyStr.removesuffix end_pmatrix t
  | None => None
  end.

(** The body split on the row delimiter, each piece split on the column
    delimiter. *)
Definition entries_of (s : string) : option (list (list string)) :=
  option_map
    (fun body => map (PyStr.split col_delim) (PyStr.split row_delim body))
    (body_of s).

(** The claim of the specification on reading back: the entries are
    [rows * cols] many, in row-major order, entry [(i, j)] rendering
    [gate[i][j]]. *)
Definition reads_back (gate : Matrix) : Prop :=
  exists es : list string,
    option_map (@List.concat string) (entries_of (gate_latex gate))
    = Some es
    /\ List.length es = rows gate * cols gate
    /\ forall i j line element,
         nth_error gate i = Some line ->
         nth_error line j = Some element ->
         nth_error es (i * cols gate + j) = Some (str element).

(** The claim of the specification on delimiters, with the counts taken
    in [Z] since [rows - 1] and [cols - 1] are written for every matrix. *)
Definition delimiter_counts (gate : Matrix) : Prop :=
  exists body : string,
    body_of (gate_latex gate) = Some body
    /\ Z.of_nat (PyStr.count row_delim body) = (Z.of_nat (rows gate) - 1)%Z
    /\ Forall
         (fun row =>
            Z.of_nat (PyStr.count col_delim row)
            = (Z.of_nat (cols gate) - 1)%Z)
         (PyStr.split row_delim body).

(** The claim of the specification on effects: apart from the string left
    in [gate_latex] and shown once, a run leaves every name as it was. *)
Definition no_other_effect (ns : namespace) : Prop :=
  v_gate (run_cell ns) = v_gate ns
  /\ v_line (run_cell ns) = v_line ns
  /\ v_element (run_cell ns) = v_element ns
  /\ v_displayed (run_cell ns)
     = (v_displayed ns ++ [v_gate_latex (run_cell ns)])%list.

(** Row [i] of the returned string holds as many entries as row [i] of
    [gate] has elements. *)
Definition rows_contribute (gate : Matrix) : Prop :=
  exists (s : string) (rs : list (list string)),
    format gate = Returned s
    /\ entries_of s = Some rs
    /\ map (@List.length string) rs = map (@List.length Elem) gate.

End Cell.

Arguments Matrix Elem : clear implicits.
Arguments add_element {Elem} str acc element.
Arguments add_line {Elem} str acc line.
Arguments gate_latex {Elem} str gate.
Arguments namespace Elem : clear implicits.
Arguments mkns {Elem}.
Arguments v_gate {Elem}.
Arguments v_gate_latex {Elem}.
Arguments v_line {Elem}.
Arguments v_element {Elem}.
Arguments v_displayed {Elem}.
Arguments set_gate_latex {Elem} s ns.
Arguments exec_element {Elem} str ns element.
Arguments exec_line {Elem} str ns line.
Arguments exec_display {Elem} ns.
Arguments run_cell {Elem} str ns.
Arguments format {Elem} str gate.
Arguments rows {Elem} gate.
Arguments cols {Elem} gate.
Arguments rectangular {Elem} gate.
Arguments nonempty_row {Elem} line.
Arguments clean {Elem} str gate.
Arguments row_text {Elem} str line.
Arguments later_row {Elem} str line.
Arguments later_rows {Elem} str rest.
Arguments first_row {Elem} str line.
Arguments row_by_row {Elem} str gate.
Arguments reads_back {Elem} str gate.
Arguments delimiter_counts {Elem} str gate.
Arguments no_other_effect {Elem} str ns.
Arguments rows_contribute {Elem} str gate.

(** ** The matrices of the notebook *)

Module Notebook.

Import PyComplex.

(** Tensor product of integer matrices, as the text of the notebook
    writes it for [Z] and [X]. *)
Definition kron (A B : list (list Z)) : list (list Z) :=
  flat_map
    (fun ra => map (fun rb => flat_map (fun a => map (Z.mul a) rb) ra) B)
    A.

Definition pauli_Z : list (list Z) := [[1; 0]; [0; -1]]%Z.
Definition pauli_X : list (list Z) := [[0; 1]; [1; 0]]%Z.

Definition ZX_values : list (list Z) :=
  [[0; 1; 0; 0]; [1; 0; 0; 0]; [0; 0; 0; -1]; [0; 0; -1; 0]]%Z.

(** The unitary the cell displays. *)
Definition ZX : Matrix complex := map (map of_real) ZX_values.

(** The output recorded in the notebook for that cell. *)
Definition recorded_output : string :=
  "\begin{pmatrix}0j&(1+0j)&0j&0j\\(1+0j)&0j&0j&0j\\0j&0j&0j&(-1+0j)\\0j&0j&(-1+0j)&0j\end{pmatrix}".

Definition ragged : Matrix complex :=
  [[of_real 1; of_real 0]; [of_real (-1)]].

(** Rows of two, none and one element. *)
Definition gapped : Matrix complex :=
  [[of_real 1; of_real 2]; []; [of_real 3]].

(** A three-by-two matrix. *)
Definition three_by_two : Matrix complex :=
  [[of_real 1; of_real 2]; [of_real 3; of_real 4]; [of_real 5; of_real 6]].

(** The names before the cell has ever run, and after some earlier cell
    left values in them. *)
Definition fresh_names : namespace complex :=
  mkns ZX "" None None [].

Definition used_names : namespace complex :=
  mkns ZX "left over" (Some [of_real 7]) (Some (of_real 7)) ["shown before"].

End Notebook.

(** ** Facts on the string operations *)

Module PyStrFacts.

Import PyStr.

Lemma append_nil_r (s : string) : s ++ "" = s.
Proof. induction s as [|c s IH]; simpl; [reflexivity | now rewrite IH]. Qed.

Lemma append_assoc (a b c : string) : (a ++ b) ++ c = a ++ (b ++ c).
Proof. induction a as [|x a IH]; simpl; [reflexivity | now rewrite IH]. Qed.

Lemma length_append (a b : string) :
  length (a ++ b) = length a + length b.
Proof. induction a as [|x a IH]; simpl; [reflexivity | now rewrite IH]. Qed.

Lemma substring_all (s : string) : substring 0 (length s) s = s.
Proof. induction s as [|c s IH]; simpl; [reflexivity | now rewrite IH]. Qed.

Lemma substring_0_append (a b : string) :
  substring 0 (length a) (a ++ b) = a.
Proof.
  induction a as [|x a IH]; simpl.
  - now destruct b.
  - now rewrite IH.
Qed.

Lemma substring_skip_append (a b : string) :
  substring (length a) (length b) (a ++ b) = b.
Proof.
  induction a as [|x a IH]; simpl.
  - apply substring_all.
  - exact IH.
Qed.

(** Slicing off as many characters as were appended last gives back what
    was there before. *)
Lemma slice_0_neg_append (a b : string) :
  slice_0_neg (length b) (a ++ b) = a.
Proof.
  unfold slice_0_neg. rewrite length_append.
  replace (length a + length b - length b) with (length a) by lia.
  apply substring_0_append.
Qed.

Lemma removeprefix_append (p s : string) :
  removeprefix p (p ++ s) = Some s.
Proof.
  induction p as [|c p IH]; simpl; [reflexivity|].
  now rewrite Ascii.eqb_refl.
Qed.

Lemma endswith_append (q s : string) : endswith q (s ++ q) = true.
Proof.
  unfold endswith. rewrite length_append.
  replace (length s + length q - length q) with (length s) by lia.
  rewrite substring_skip_append, String.eqb_refl.
  rewrite andb_true_r. apply Nat.leb_le. lia.
Qed.

Lemma removesuffix_append (q s : string) :
  removesuffix q (s ++ q) = Some s.
Proof.
  unfold removesuffix. rewrite endswith_append, length_append.
  replace (length s + length q - length q) with (length s) by lia.
  now rewrite substring_0_append.
Qed.

Lemma prefix_append (p s : string) : prefix p (p ++ s) = true.
Proof.
  induction p as [|c p IH]; simpl.
  - now destruct s.
  - destruct (ascii_dec c c) as [_|n]; [exact IH | now elim n].
Qed.

Lemma mem_char_append (c : ascii) (a b : string) :
  mem_char c (a ++ b) = mem_char c a || mem_char c b.
Proof.
  induction a as [|x a IH]; simpl; [reflexivity|].
  now rewrite IH, orb_assoc.
Qed.

(** *** [split] undoes [join] when no piece holds the first character
        of the separator *)

Lemma split_from_skip (sep r cur rest : string) :
  split_from sep (length r) cur (r ++ rest) = split_from sep 0 cur rest.
Proof.
  induction r as [|x r IH]; simpl; [reflexivity | exact IH].
Qed.

Lemma prefix_other_head (c a : ascii) (r s : string) :
  Ascii.eqb a c = false -> prefix (String c r) (String a s) = false.
Proof.
  intros H. simpl. destruct (ascii_dec c a) as [e|_]; [|reflexivity].
  subst a. now rewrite Ascii.eqb_refl in H.
Qed.

Lemma split_from_piece (c : ascii) (r p cur rest : string) :
  mem_char c p = false ->
  split_from (String c r) 0 cur (p ++ (String c r ++ rest))
  = (cur ++ p) :: split_from (String c r) 0 "" rest.
Proof.
  revert cur. induction p as [|a p IH]; intros cur Hp.
  - rewrite append_nil_r.
    change ("" ++ (String c r ++ rest)) with (String c (r ++ rest)).
    cbn [split_from].
    change (String c (r ++ rest)) with (String c r ++ rest).
    rewrite prefix_append. f_equal.
    cbn [length]. rewrite Nat.sub_succ, Nat.sub_0_r.
    apply split_from_skip.
  - cbn [mem_char] in Hp. apply orb_false_iff in Hp as [Ha Hp].
    change (String a p ++ (String c r ++ rest))
      with (String a (p ++ (String c r ++ rest))).
    cbn [split_from]. rewrite (prefix_other_head c a r _ Ha).
    rewrite (IH _ Hp). f_equal.
    now rewrite append_assoc.
Qed.

Lemma split_from_last (c : ascii) (r p cur : string) :
  mem_char c p = false ->
  split_from (String c r) 0 cur p = [cur ++ p].
Proof.
  revert cur. induction p as [|a p IH]; intros cur Hp.
  - now rewrite append_nil_r.
  - cbn [mem_char] in Hp. apply orb_false_iff in Hp as [Ha Hp].
    cbn [split_from]. rewrite (prefix_other_head c a r _ Ha).
    rewrite (IH _ Hp). now rewrite append_assoc.
Qed.

Lemma split_concat (c : ascii) (r : string) (pieces : list string) :
  pieces <> [] ->
  Forall (fun p => mem_char c p = false) pieces ->
  split (String c r) (String.concat (String c r) pieces) = pieces.
Proof.
  unfold split. induction pieces as [|p ps IH]; intros Hne Hfree.
  - now elim Hne.
  - inversion Hfree as [|? ? Hp Hps]; subst.
    destruct ps as [|p' ps'].
    + cbn [String.concat]. now rewrite split_from_last.
    + change (String.concat (String c r) (p :: p' :: ps'))
        with (p ++ (String c r ++ String.concat (String c r) (p' :: ps'))).
      rewrite split_from_piece by exact Hp.
      cbn [append]. f_equal. apply IH; [discriminate | exact Hps].
Qed.

(** *** [count] is one less than the number of pieces of [split] *)

Lemma length_split_from (sep : string) (k : nat) (cur s : string) :
  List.length (split_from sep k cur s) = S (count_from sep k s).
Proof.
  revert k cur. induction s as [|a s IH]; intros k cur; [reflexivity|].
  cbn [split_from count_from]. destruct k as [|k]; [|apply IH].
  destruct (prefix sep (String a s)); cbn [List.length]; now rewrite IH.
Qed.

Lemma count_split (sep s : string) :
  count sep s = List.length (split sep s) - 1.
Proof.
  unfold count, split. rewrite length_split_from. lia.
Qed.

End PyStrFacts.

(** ** Facts on the cell *)

Section CellFacts.

Import PyStr PyStrFacts.

Variable Elem : Type.
Variable str : Elem -> string.

(** *** The loops *)

Lemma fold_add_element (element : Elem) (line : list Elem) (acc : string) :
  fold_left (add_element str) (element :: line) acc
  = acc ++ (row_text str (element :: line) ++ col_delim).
Proof.
  revert element acc. induction line as [|e' line IH]; intros element acc.
  - reflexivity.
  - change (fold_left (add_element str) (element :: e' :: line) acc)
      with (fold_left (add_element str) (e' :: line)
              (acc ++ (str element ++ col_delim))).
    rewrite IH.
    change (row_text str (element :: e' :: line))
      with (str element ++ (col_delim ++ row_text str (e' :: line))).
    now rewrite !append_assoc.
Qed.

Lemma add_line_nil (acc : string) :
  add_line str acc [] = slice_0_neg 1 acc ++ row_delim.
Proof. reflexivity. Qed.

Lemma add_line_cons (acc : string) (element : Elem) (line : list Elem) :
  add_line str acc (element :: line)
  = acc ++ (row_text str (element :: line) ++ row_delim).
Proof.
  unfold add_line. rewrite fold_add_element, <- append_assoc.
  change 1 with (length col_delim).
  now rewrite slice_0_neg_append, append_assoc.
Qed.

(** After a row delimiter the trim of an empty row eats one backslash of
    that delimiter. *)
Lemma add_line_later (a : string) (line : list Elem) :
  add_line str (a ++ row_delim) line
  = (a ++ later_row str line) ++ row_delim.
Proof.
  destruct line as [|element line].
  - rewrite add_line_nil.
    change row_delim with ("\" ++ "\") at 1.
    rewrite <- append_assoc.
    change 1 with (length "\").
    now rewrite slice_0_neg_append.
  - rewrite add_line_cons. cbn [later_row].
    now rewrite !append_assoc.
Qed.

Lemma fold_add_line_later (rest : list (list Elem)) (a : string) :
  fold_left (add_line str) rest (a ++ row_delim)
  = (a ++ later_rows str rest) ++ row_delim.
Proof.
  revert a. induction rest as [|line rest IH]; intros a.
  - cbn [fold_left later_rows fold_right]. now rewrite append_nil_r.
  - cbn [fold_left]. rewrite add_line_later, IH.
    cbn [later_rows fold_right]. now rewrite !append_assoc.
Qed.

Lemma add_line_first (line : list Elem) :
  add_line str begin_pmatrix line = first_row str line ++ row_delim.
Proof.
  destruct line as [|element line]; [reflexivity|].
  rewrite add_line_cons. cbn [first_row]. now rewrite append_assoc.
Qed.

(** The cell computes the row-by-row form, whatever the shape. *)
Lemma gate_latex_row_by_row (gate : Matrix Elem) :
  gate_latex str gate = row_by_row str gate.
Proof.
  destruct gate as [|line rest]; [reflexivity|].
  unfold gate_latex, row_by_row. cbn [fold_left].
  rewrite add_line_first, fold_add_line_later.
  change 2 with (length row_delim).
  now rewrite slice_0_neg_append.
Qed.

(** *** Matrices whose rows all have an element *)

Lemma later_rows_nonempty (rest : list (list Elem)) :
  forallb nonempty_row rest = true ->
  later_rows str rest
  = fold_right (fun t s => row_delim ++ (t ++ s)) ""
      (map (row_text str) rest).
Proof.
  induction rest as [|line rest IH]; intros H; [reflexivity|].
  cbn [forallb] in H. apply andb_true_iff in H as [Hl Hr].
  cbn [later_rows fold_right map]. fold (later_rows str rest).
  rewrite (IH Hr). destruct line as [|element line]; [discriminate|].
  cbn [later_row]. now rewrite append_assoc.
Qed.

Lemma concat_cons (sep t : string) (ts : list string) :
  String.concat sep (t :: ts)
  = t ++ fold_right (fun t' s => sep ++ (t' ++ s)) "" ts.
Proof.
  revert t. induction ts as [|t' ts IH]; intros t.
  - cbn. now rewrite append_nil_r.
  - change (String.concat sep (t :: t' :: ts))
      with (t ++ (sep ++ String.concat sep (t' :: ts))).
    now rewrite IH.
Qed.

(** With at least one row and an element in every row the output is the
    display form of the specification: prefix, rows joined by the row
    delimiter, suffix. *)
Lemma gate_latex_joined (gate : Matrix Elem) :
  gate <> [] ->
  forallb nonempty_row gate = true ->
  gate_latex str gate
  = begin_pmatrix
    ++ (String.concat row_delim (map (row_text str) gate) ++ end_pmatrix).
Proof.
  intros Hne Hrows. rewrite gate_latex_row_by_row.
  destruct gate as [|line rest]; [now elim Hne|].
  cbn [forallb] in Hrows. apply andb_true_iff in Hrows as [Hl Hr].
  unfold row_by_row. rewrite (later_rows_nonempty _ Hr).
  cbn [map]. rewrite concat_cons.
  destruct line as [|element line]; [discriminate|].
  cbn [first_row]. now rewrite !append_assoc.
Qed.

Lemma body_of_wrapped (body : string) :
  body_of (begin_pmatrix ++ (body ++ end_pmatrix)) = Some body.
Proof.
  unfold body_of.
  now rewrite removeprefix_append, removesuffix_append.
Qed.

(** *** Rendered rows hold no backslash, rendered elements no ampersand *)

Lemma delimiter_free_amp (s : string) :
  delimiter_free s = true -> mem_char "&"%char s = false.
Proof.
  unfold delimiter_free. intros H. apply andb_true_iff in H as [H _].
  now apply negb_true_iff in H.
Qed.

Lemma delimiter_free_backslash (s : string) :
  delimiter_free s = true -> mem_char "\"%char s = false.
Proof.
  unfold delimiter_free. intros H. apply andb_true_iff in H as [_ H].
  now apply negb_true_iff in H.
Qed.

Lemma row_text_no_backslash (line : list Elem) :
  forallb (fun element => delimiter_free (str element)) line = true ->
  mem_char "\"%char (row_text str line) = false.
Proof.
  induction line as [|element line IH]; intros H; [reflexivity|].
  cbn [forallb] in H. apply andb_true_iff in H as [He Hl].
  destruct line as [|e' line].
  - now apply delimiter_free_backslash.
  - change (row_text str (element :: e' :: line))
      with (str element ++ (col_delim ++ row_text str (e' :: line))).
    rewrite !mem_char_append, (delimiter_free_backslash _ He), (IH Hl).
    reflexivity.
Qed.

Lemma split_row_text (line : list Elem) :
  nonempty_row line = true ->
  forallb (fun element => delimiter_free (str element)) line = true ->
  split col_delim (row_text str line) = map str line.
Proof.
  intros Hne H. unfold row_text.
  change col_delim with (String "&"%char "").
  apply split_concat.
  - destruct line; [discriminate | discriminate].
  - apply Forall_forall. intros t Ht.
    apply in_map_iff in Ht as [element [<- Hin]].
    apply delimiter_free_amp.
    exact (proj1 (forallb_forall _ _) H element Hin).
Qed.

Lemma split_rows (gate : Matrix Elem) :
  gate <> [] ->
  clean str gate = true ->
  split row_delim (String.concat row_delim (map (row_text str) gate))
  = map (row_text str) gate.
Proof.
  intros Hne H.
  change row_delim with (String "\"%char "\").
  apply split_concat.
  - destruct gate; [now elim Hne | discriminate].
  - apply Forall_forall. intros t Ht.
    apply in_map_iff in Ht as [line [<- Hin]].
    apply row_text_no_backslash.
    exact (proj1 (forallb_forall _ _) H line Hin).
Qed.

(** Reading the output back gives the rendered elements row by row; the
    rows need not have one length. *)
Lemma entries_of_gate_latex (gate : Matrix Elem) :
  gate <> [] ->
  forallb nonempty_row gate = true ->
  clean str gate = true ->
  entries_of (gate_latex str gate) = Some (map (map str) gate).
Proof.
  intros Hne Hrows Hclean. unfold entries_of.
  rewrite (gate_latex_joined _ Hne Hrows), body_of_wrapped.
  cbn [option_map]. f_equal.
  rewrite (split_rows _ Hne Hclean), map_map.
  apply map_ext_in. intros line Hin.
  apply split_row_text.
  - exact (proj1 (forallb_forall _ _) Hrows line Hin).
  - exact (proj1 (forallb_forall _ _) Hclean line Hin).
Qed.

End CellFacts.

(** ** Facts on shapes *)

Section ShapeFacts.

Variable Elem : Type.

Lemma rectangular_Forall (gate : Matrix Elem) :
  rectangular gate = true ->
  Forall (fun line => List.length line = cols gate) gate.
Proof.
  intros H. apply Forall_forall. intros line Hin.
  apply Nat.eqb_eq.
  exact (proj1 (forallb_forall _ _) H line Hin).
Qed.

Lemma rectangular_nonempty_rows (gate : Matrix Elem) :
  rectangular gate = true ->
  1 <= cols gate ->
  forallb nonempty_row gate = true.
Proof.
  intros H Hc. apply forallb_forall. intros line Hin.
  pose proof (proj1 (Forall_forall _ _) (rectangular_Forall _ H) line Hin)
    as Hlen.
  cbv beta in Hlen. destruct line; [cbn in Hlen; lia | reflexivity].
Qed.

Lemma rows_nonempty (gate : Matrix Elem) : 1 <= rows gate -> gate <> [].
Proof. destruct gate; cbn; [lia | discriminate]. Qed.

Lemma length_concat_uniform (c : nat) (gate : Matrix Elem) :
  Forall (fun line => List.length line = c) gate ->
  List.length (List.concat gate) = List.length gate * c.
Proof.
  induction 1 as [|line rest Hl _ IH]; [reflexivity|].
  cbn [List.concat List.length]. rewrite length_app, IH, Hl. lia.
Qed.

(** Row-major position [i * c + j] of the flattened matrix is column [j]
    of row [i]. *)
Lemma nth_error_concat_uniform (c : nat) (gate : Matrix Elem) :
  Forall (fun line => List.length line = c) gate ->
  forall i j line,
    nth_error gate i = Some line ->
    j < c ->
    nth_error (List.concat gate) (i * c + j) = nth_error line j.
Proof.
  induction 1 as [|l0 rest Hl _ IH]; intros i j line Hi Hj.
  - now destruct i.
  - destruct i as [|i]; cbn [nth_error] in Hi.
    + injection Hi as ->. cbn [List.concat Nat.mul Nat.add].
      apply nth_error_app1. lia.
    + cbn [List.concat]. rewrite nth_error_app2 by (rewrite Hl; lia).
      rewrite <- (IH i j line Hi Hj). f_equal. rewrite Hl. lia.
Qed.

End ShapeFacts.

(** ** [str] on complex numbers never writes a delimiter *)

Module PyComplexFacts.

Import PyStr PyStrFacts PyComplex.

Lemma uint_no_char (c : ascii) (d : Decimal.uint) :
  (forallb (fun a => negb (Ascii.eqb a c))
     ["0"; "1"; "2"; "3"; "4"; "5"; "6"; "7"; "8"; "9"]%char) = true ->
  mem_char c (NilEmpty.string_of_uint d) = false.
Proof.
  intros H. cbn [forallb] in H.
  repeat (apply andb_true_iff in H as [?H%negb_true_iff H]).
  induction d; cbn [NilEmpty.string_of_uint mem_char];
    try reflexivity; rewrite IHd; now rewrite orb_false_r.
Qed.

Lemma double_to_string_free (b : bool) (x : pyfloat) :
  delimiter_free (double_to_string b x) = true.
Proof.
  unfold delimiter_free, double_to_string, digits.
  rewrite !mem_char_append, !uint_no_char by reflexivity.
  now destruct (negative x), b.
Qed.

Lemma str_delimiter_free (z : complex) : delimiter_free (str z) = true.
Proof.
  pose proof double_to_string_free as D. unfold delimiter_free in *.
  unfold str. destruct (is_positive_zero (real z)).
  - specialize (D false (imag z)).
    apply andb_true_iff in D as [D1%negb_true_iff D2%negb_true_iff].
    now rewrite !mem_char_append, D1, D2.
  - pose proof (D false (real z)) as R. pose proof (D true (imag z)) as I.
    apply andb_true_iff in R as [R1%negb_true_iff R2%negb_true_iff].
    apply andb_true_iff in I as [I1%negb_true_iff I2%negb_true_iff].
    now rewrite !mem_char_append, R1, R2, I1, I2.
Qed.

(** Every matrix of such complex numbers satisfies the side condition
    [clean] of the theorems on reading back. *)
Lemma clean_str (gate : Matrix complex) : clean str gate = true.
Proof.
  apply forallb_forall. intros line _.
  apply forallb_forall. intros z _. apply str_delimiter_free.
Qed.

End PyComplexFacts.

(** ** The run over the notebook's names *)

Section RunFacts.

Variable Elem : Type.
Variable str : Elem -> string.

Lemma last_cons (A : Type) (x : A) (l : list A) (d : A) :
  last (x :: l) d = last l x.
Proof.
  revert x d. induction l as [|y l IH]; intros x d; [reflexivity|].
  change (last (x :: y :: l) d) with (last (y :: l) d).
  now rewrite !IH.
Qed.

(** The inner loop touches [gate_latex] and [element] only. *)
Lemma fold_exec_element (line : list Elem) (ns : namespace Elem) :
  let ns' := fold_left (exec_element str) line ns in
  v_gate ns' = v_gate ns
  /\ v_gate_latex ns' = fold_left (add_element str) line (v_gate_latex ns)
  /\ v_line ns' = v_line ns
  /\ v_element ns' = last (map Some line) (v_element ns)
  /\ v_displayed ns' = v_displayed ns.
Proof.
  revert ns. induction line as [|element line IH]; intros ns.
  - cbn. repeat split.
  - cbn [fold_left]. cbv zeta in IH |- *.
    destruct (IH (exec_element str ns element)) as (Hg & Hs & Hl & He & Hd).
    rewrite Hg, Hs, Hl, He, Hd. repeat split.
    cbn [map]. now rewrite last_cons.
Qed.

Lemma exec_line_spec (ns : namespace Elem) (line : list Elem) :
  let ns' := exec_line str ns line in
  v_gate ns' = v_gate ns
  /\ v_gate_latex ns' = add_line str (v_gate_latex ns) line
  /\ v_line ns' = Some line
  /\ v_element ns' = last (map Some line) (v_element ns)
  /\ v_displayed ns' = v_displayed ns.
Proof.
  cbv zeta. unfold exec_line, add_line.
  match goal with
  | |- context [fold_left (exec_element str) line ?n] =>
      destruct (fold_exec_element line n) as (Hg & Hs & Hl & He & Hd)
  end.
  cbv zeta in Hg, Hs, Hl, He, Hd. cbn [set_gate_latex v_gate v_gate_latex
    v_line v_element v_displayed] in *.
  rewrite Hs. repeat split; assumption.
Qed.

(** The outer loop leaves [gate] and the display alone and builds the
    string of the fold. *)
Lemma fold_exec_line (gate : Matrix Elem) (ns : namespace Elem) :
  let ns' := fold_left (exec_line str) gate ns in
  v_gate ns' = v_gate ns
  /\ v_gate_latex ns' = fold_left (add_line str) gate (v_gate_latex ns)
  /\ v_line ns' = last (map Some gate) (v_line ns)
  /\ v_displayed ns' = v_displayed ns.
Proof.
  revert ns. induction gate as [|line gate IH]; intros ns.
  - cbn. repeat split.
  - cbn [fold_left]. cbv zeta in IH |- *.
    destruct (IH (exec_line str ns line)) as (Hg & Hs & Hl & Hd).
    destruct (exec_line_spec ns line) as (Hg' & Hs' & Hl' & _ & Hd').
    cbv zeta in Hg', Hs', Hl', Hd'.
    rewrite Hg, Hs, Hl, Hd, Hg', Hs', Hl', Hd'. repeat split.
    cbn [map]. now rewrite last_cons.
Qed.

(** What a run of the cell leaves behind. *)
Lemma run_cell_spec (ns : namespace Elem) :
  v_gate (run_cell str ns) = v_gate ns
  /\ v_gate_latex (run_cell str ns) = gate_latex str (v_gate ns)
  /\ v_line (run_cell str ns) = last (map Some (v_gate ns)) (v_line ns)
  /\ v_displayed (run_cell str ns)
     = (v_displayed ns ++ [gate_latex str (v_gate ns)])%list.
Proof.
  unfold run_cell, gate_latex.
  match goal with
  | |- context [fold_left (exec_line str) ?g ?n] =>
      destruct (fold_exec_line g n) as (Hg & Hs & Hl & Hd)
  end.
  cbv zeta in Hg, Hs, Hl, Hd.
  cbn [exec_display set_gate_latex v_gate v_gate_latex v_line v_element
       v_displayed] in *.
  rewrite Hg, Hs, Hl, Hd. repeat split.
Qed.

End RunFacts.

(** ** The properties of the specification, for every rendering [str] *)

Section Claims.

Import PyStr PyStrFacts.

Variable Elem : Type.
Variable str : Elem -> string.

(** C1, as amended: for every rectangular matrix with at least one row and
    at least one column whose rendered elements hold no delimiter
    character, stripping the prefix and the suffix from the output and
    splitting the rest on the row delimiter and then on the column
    delimiter gives exactly [rows * cols] entries in row-major order, the
    entry at [(i, j)] being the rendering of [gate[i][j]]. *)
Theorem gate_latex_reads_back (gate : Matrix Elem) :
  rectangular gate = true ->
  1 <= rows gate ->
  1 <= cols gate ->
  clean str gate = true ->
  reads_back str gate.
Proof.
  intros Hrect Hr Hc Hclean.
  pose proof (rectangular_Forall _ _ Hrect) as Hlen.
  exists (map str (List.concat gate)).
  rewrite (entries_of_gate_latex _ str gate (rows_nonempty _ _ Hr)
             (rectangular_nonempty_rows _ _ Hrect Hc) Hclean).
  cbn [option_map]. split; [|split].
  - now rewrite concat_map.
  - rewrite length_map. now apply length_concat_uniform.
  - intros i j line element Hi Hj.
    assert (j < cols gate) as Hlt.
    { rewrite <- (proj1 (Forall_forall _ _) Hlen line (nth_error_In _ _ Hi)).
      apply nth_error_Some. now rewrite Hj. }
    rewrite nth_error_map.
    rewrite (nth_error_concat_uniform _ _ _ Hlen i j line Hi Hlt).
    now rewrite Hj.
Qed.

(** C5, as amended: for every rectangular matrix with at least one row and
    at least one column whose rendered elements hold no delimiter
    character, the body of the output holds exactly [rows - 1] row
    delimiters and each of its rows exactly [cols - 1] column
    delimiters. *)
Theorem gate_latex_delimiter_counts (gate : Matrix Elem) :
  rectangular gate = true ->
  1 <= rows gate ->
  1 <= cols gate ->
  clean str gate = true ->
  delimiter_counts str gate.
Proof.
  intros Hrect Hr Hc Hclean.
  pose proof (rows_nonempty _ _ Hr) as Hne.
  pose proof (rectangular_nonempty_rows _ _ Hrect Hc) as Hrows.
  exists (String.concat row_delim (map (row_text str) gate)).
  rewrite (gate_latex_joined _ str gate Hne Hrows), body_of_wrapped.
  rewrite (split_rows _ str gate Hne Hclean).
  split; [reflexivity | split].
  - rewrite count_split, (split_rows _ str gate Hne Hclean), length_map.
    unfold rows in *. lia.
  - apply Forall_forall. intros t Ht.
    apply in_map_iff in Ht as [line [<- Hin]].
    rewrite count_split, split_row_text, length_map.
    + rewrite (proj1 (Forall_forall _ _) (rectangular_Forall _ _ Hrect)
                 line Hin). lia.
    + exact (proj1 (forallb_forall _ _) Hrows line Hin).
    + exact (proj1 (forallb_forall _ _) Hclean line Hin).
Qed.

(** C2, as amended: for every input whose rows have differing lengths the
    cell does not fail; it returns the complete string of its loops, which
    ends with the suffix, and no error reaches the caller. *)
Theorem format_ragged_returns (gate : Matrix Elem) :
  rectangular gate = false ->
  exists s : string,
    format str gate = Returned s
    /\ endswith end_pmatrix s = true
    /\ forall e : error, format str gate <> Raised e.
Proof.
  intros _. exists (gate_latex str gate). split; [reflexivity | split].
  - unfold gate_latex. apply endswith_append.
  - intros e. discriminate.
Qed.

(** C9, as amended: the cell runs to the end on every list of rows, of one
    length or not: it tests no shape and raises nothing; and when there is
    a row, every row has an element and no rendering holds a delimiter
    character, the returned string read back gives for row [i] exactly the
    renderings of the elements of row [i], as many entries as the row is
    long. *)
Theorem format_total_rows (gate : Matrix Elem) :
  (exists s : string,
     format str gate = Returned s /\ endswith end_pmatrix s = true)
  /\ (forall e : error, format str gate <> Raised e)
  /\ (gate <> [] ->
      forallb nonempty_row gate = true ->
      clean str gate = true ->
      rows_contribute str gate
      /\ exists s : string,
           format str gate = Returned s
           /\ entries_of s = Some (map (map str) gate)).
Proof.
  split; [|split].
  - exists (gate_latex str gate). split; [reflexivity|].
    unfold gate_latex. apply endswith_append.
  - intros e. discriminate.
  - intros Hne Hrows Hclean.
    pose proof (entries_of_gate_latex _ str gate Hne Hrows Hclean) as E.
    split.
    + exists (gate_latex str gate), (map (map str) gate).
      split; [reflexivity | split; [exact E|]].
      rewrite map_map. apply map_ext. intros line. apply length_map.
    + exists (gate_latex str gate). split; [reflexivity | exact E].
Qed.

(** C10: for a matrix with no row the output is [\begin{pmatri\end{pmatrix}]:
    no row delimiter was appended, and the final slice of two characters
    takes the last two characters of the prefix. *)
Theorem gate_latex_no_rows :
  gate_latex str [] = "\begin{pmatri\end{pmatrix}"
  /\ fold_left (add_line str) [] begin_pmatrix = begin_pmatrix
  /\ slice_0_neg 2 begin_pmatrix = "\begin{pmatri".
Proof. repeat apply conj; reflexivity. Qed.

(** X1: when the first row has an element the output starts with the
    prefix and ends with the suffix, whatever the lengths of the rows. *)
Theorem gate_latex_starts_ends (line : list Elem) (rest : Matrix Elem) :
  line <> [] ->
  prefix begin_pmatrix (gate_latex str (line :: rest)) = true
  /\ endswith end_pmatrix (gate_latex str (line :: rest)) = true.
Proof.
  intros Hne. split.
  - rewrite gate_latex_row_by_row. unfold row_by_row.
    destruct line as [|element line]; [now elim Hne|].
    cbn [first_row]. rewrite !append_assoc. apply prefix_append.
  - unfold gate_latex. apply endswith_append.
Qed.

End Claims.

(** ** The matrices of the notebook and the degenerate shapes *)

(** C7: the one-by-one matrix holding [1+0j] is displayed as
    [\begin{pmatrix}(1+0j)\end{pmatrix}]. *)
Theorem gate_latex_one_by_one :
  PyComplex.str (PyComplex.of_real 1) = "(1+0j)"
  /\ gate_latex PyComplex.str [[PyComplex.of_real 1]]
     = "\begin{pmatrix}(1+0j)\end{pmatrix}".
Proof. split; reflexivity. Qed.

(** C6: for the unitary of the notebook's circuit, the tensor product of
    [Z] and [X], the cell builds the output the notebook records, and the
    entries read back from it are the renderings of the sixteen values in
    row-major order. *)
Theorem gate_latex_ZX :
  Notebook.kron Notebook.pauli_Z Notebook.pauli_X = Notebook.ZX_values
  /\ gate_latex PyComplex.str Notebook.ZX = Notebook.recorded_output
  /\ option_map (@List.concat string)
       (entries_of (gate_latex PyComplex.str Notebook.ZX))
     = Some (map PyComplex.str (List.concat Notebook.ZX))
  /\ map PyComplex.str (List.concat Notebook.ZX)
     = ["0j"; "(1+0j)"; "0j"; "0j";
        "(1+0j)"; "0j"; "0j"; "0j";
        "0j"; "0j"; "0j"; "(-1+0j)";
        "0j"; "0j"; "(-1+0j)"; "0j"].
Proof. repeat apply conj; reflexivity. Qed.

(** C3: on a matrix with no row, and on one row with no element, the
    unconditional slices cut into the prefix, so the output is not the
    prefix followed by the suffix. *)
Theorem gate_latex_degenerate :
  gate_latex PyComplex.str [] <> begin_pmatrix ++ end_pmatrix
  /\ gate_latex PyComplex.str [[]] = "\begin{pmatrix\end{pmatrix}"
  /\ gate_latex PyComplex.str [[]] <> begin_pmatrix ++ end_pmatrix
  /\ body_of (gate_latex PyComplex.str []) = None
  /\ body_of (gate_latex PyComplex.str [[]]) = None.
Proof. repeat apply conj; (reflexivity || discriminate). Qed.

(** C4: on a matrix with no row, and on one row with no element, the
    output ends with the suffix but does not start with the prefix. *)
Theorem gate_latex_degenerate_prefix :
  rectangular (@nil (list PyComplex.complex)) = true
  /\ prefix begin_pmatrix (gate_latex PyComplex.str []) = false
  /\ PyStr.endswith end_pmatrix (gate_latex PyComplex.str []) = true
  /\ rectangular [@nil PyComplex.complex] = true
  /\ prefix begin_pmatrix (gate_latex PyComplex.str [[]]) = false.
Proof. repeat apply conj; reflexivity. Qed.

(** C1, as stated, fails on the matrix with no row: its output does not
    carry the prefix, so nothing is read back; and the string of the
    prefix followed by the suffix reads back as one empty entry, not as
    none. *)
Lemma reads_back_no_rows :
  rectangular (@nil (list PyComplex.complex)) = true
  /\ ~ reads_back PyComplex.str []
  /\ option_map (@List.concat string)
       (entries_of (begin_pmatrix ++ end_pmatrix))
     = Some [""].
Proof.
  split; [reflexivity | split; [|reflexivity]].
  intros [es [H _]]. vm_compute in H. discriminate.
Qed.

(** C5, as stated, fails on the matrix with no row: the output has no
    body, and no count of delimiters equals [rows - 1 = -1]. *)
Lemma delimiter_counts_no_rows :
  rectangular (@nil (list PyComplex.complex)) = true
  /\ ~ delimiter_counts PyComplex.str []
  /\ forall body : string,
       Z.of_nat (PyStr.count row_delim body)
       <> (Z.of_nat (rows (@nil (list PyComplex.complex))) - 1)%Z.
Proof.
  split; [reflexivity | split].
  - intros [body [H _]]. vm_compute in H. discriminate.
  - intros body. cbn [rows List.length]. lia.
Qed.

(** C2, as stated, fails on a matrix with rows of two and of one element:
    the cell returns its string. *)
Lemma format_ragged_not_refused :
  rectangular Notebook.ragged = false
  /\ format PyComplex.str Notebook.ragged
     = Returned "\begin{pmatrix}(1+0j)&0j\\(-1+0j)\end{pmatrix}"
  /\ format PyComplex.str Notebook.ragged <> Raised InvalidShapeError.
Proof. repeat apply conj; (reflexivity || discriminate). Qed.

(** *** The theorems at concrete matrices *)

(** The theorem on reading back, at the unitary of the notebook. *)
Lemma gate_latex_reads_back_witness :
  rectangular Notebook.ZX = true
  /\ 1 <= rows Notebook.ZX
  /\ 1 <= cols Notebook.ZX
  /\ clean PyComplex.str Notebook.ZX = true
  /\ reads_back PyComplex.str Notebook.ZX.
Proof.
  assert (rectangular Notebook.ZX = true) as H1 by reflexivity.
  assert (1 <= rows Notebook.ZX) as H2 by (vm_compute; lia).
  assert (1 <= cols Notebook.ZX) as H3 by (vm_compute; lia).
  assert (clean PyComplex.str Notebook.ZX = true) as H4 by reflexivity.
  repeat apply conj; try assumption.
  exact (gate_latex_reads_back _ PyComplex.str Notebook.ZX H1 H2 H3 H4).
Defined.

(** The theorem on the counts of delimiters, at a three-by-two matrix. *)
Lemma gate_latex_delimiter_counts_witness :
  rectangular Notebook.three_by_two = true
  /\ 1 <= rows Notebook.three_by_two
  /\ 1 <= cols Notebook.three_by_two
  /\ clean PyComplex.str Notebook.three_by_two = true
  /\ delimiter_counts PyComplex.str Notebook.three_by_two.
Proof.
  assert (rectangular Notebook.three_by_two = true) as H1 by reflexivity.
  assert (1 <= rows Notebook.three_by_two) as H2 by (vm_compute; lia).
  assert (1 <= cols Notebook.three_by_two) as H3 by (vm_compute; lia).
  assert (clean PyComplex.str Notebook.three_by_two = true) as H4
    by reflexivity.
  repeat apply conj; try assumption.
  exact (gate_latex_delimiter_counts _ PyComplex.str _ H1 H2 H3 H4).
Defined.

(** The theorem on rows of differing lengths, at rows of two and one. *)
Lemma format_ragged_returns_witness :
  rectangular Notebook.ragged = false
  /\ exists s : string,
       format PyComplex.str Notebook.ragged = Returned s
       /\ PyStr.endswith end_pmatrix s = true
       /\ forall e : error, format PyComplex.str Notebook.ragged <> Raised e.
Proof.
  split; [reflexivity|].
  apply format_ragged_returns. reflexivity.
Defined.

(** Rows of two and one read back with two and one entries. *)
Lemma format_total_rows_witness :
  Notebook.ragged <> []
  /\ forallb nonempty_row Notebook.ragged = true
  /\ clean PyComplex.str Notebook.ragged = true
  /\ rows_contribute PyComplex.str Notebook.ragged.
Proof.
  assert (Notebook.ragged <> []) as H1 by discriminate.
  assert (forallb nonempty_row Notebook.ragged = true) as H2 by reflexivity.
  assert (clean PyComplex.str Notebook.ragged = true) as H3 by reflexivity.
  repeat apply conj; try assumption.
  exact (proj1 (proj2 (proj2 (format_total_rows _ PyComplex.str
                                Notebook.ragged)) H1 H2 H3)).
Defined.

(** C9, as stated, fails on rows of two, none and one element: the row
    without elements leaves one backslash next to the row delimiter, and
    the returned string reads back as two rows, the second starting with
    that backslash. *)
Lemma rows_contribute_gapped :
  rectangular Notebook.gapped = false
  /\ format PyComplex.str Notebook.gapped
     = Returned "\begin{pmatrix}(1+0j)&(2+0j)\\\(3+0j)\end{pmatrix}"
  /\ entries_of (gate_latex PyComplex.str Notebook.gapped)
     = Some [["(1+0j)"; "(2+0j)"]; ["\(3+0j)"]]
  /\ ~ rows_contribute PyComplex.str Notebook.gapped.
Proof.
  repeat apply conj; try reflexivity.
  intros (s & rs & Hs & Hrs & Hlen).
  unfold format in Hs. injection Hs as <-.
  vm_compute in Hrs. injection Hrs as <-.
  discriminate Hlen.
Qed.

(** A first row with an element, followed by two rows without. *)
Lemma gate_latex_starts_ends_witness :
  [PyComplex.of_real 1] <> []
  /\ prefix begin_pmatrix
       (gate_latex PyComplex.str [[PyComplex.of_real 1]; []; []]) = true.
Proof.
  split; [discriminate|].
  refine (proj1 (gate_latex_starts_ends _ PyComplex.str _ _ _)).
  discriminate.
Defined.

(** X2: for complex numbers whose parts are integers of magnitude at most
    [2^53], where the model of [str] is Python's, no side condition on the
    renderings is left: whenever there is a row and every row has an
    element, of one length or not, the output reads back as the renderings
    of the elements, row by row. *)
Theorem entries_of_complex (gate : Matrix PyComplex.complex) :
  forallb (forallb PyComplex.exact) gate = true ->
  gate <> [] ->
  forallb nonempty_row gate = true ->
  entries_of (gate_latex PyComplex.str gate)
  = Some (map (map PyComplex.str) gate).
Proof.
  intros _ Hne Hrows.
  apply entries_of_gate_latex; [exact Hne | exact Hrows |].
  apply PyComplexFacts.clean_str.
Qed.

(** The same at rows of two and one. *)
Lemma entries_of_complex_witness :
  forallb (forallb PyComplex.exact) Notebook.ragged = true
  /\ Notebook.ragged <> []
  /\ forallb nonempty_row Notebook.ragged = true
  /\ entries_of (gate_latex PyComplex.str Notebook.ragged)
     = Some [["(1+0j)"; "0j"]; ["(-1+0j)"]].
Proof.
  assert (forallb (forallb PyComplex.exact) Notebook.ragged = true) as H0
    by reflexivity.
  assert (Notebook.ragged <> []) as H1 by discriminate.
  assert (forallb nonempty_row Notebook.ragged = true) as H2 by reflexivity.
  repeat apply conj; try assumption.
  exact (entries_of_complex Notebook.ragged H0 H1 H2).
Defined.

(** ** How the cell composes: stacked matrices, added rows, runs in a row *)

Section Composition.

Import PyStr PyStrFacts.

Variable Elem : Type.
Variable str : Elem -> string.

Lemma later_rows_app (r1 r2 : list (list Elem)) :
  later_rows str (r1 ++ r2)%list = later_rows str r1 ++ later_rows str r2.
Proof.
  induction r1 as [|line r1 IH]; [reflexivity|].
  change (later_rows str ((line :: r1) ++ r2)%list)
    with (later_row str line ++ later_rows str (r1 ++ r2)%list).
  rewrite IH.
  change (later_rows str (line :: r1))
    with (later_row str line ++ later_rows str r1).
  now rewrite append_assoc.
Qed.

(** Rows put under a matrix that has a row go in front of the suffix, each
    as a later row. *)
Lemma gate_latex_app (g1 g2 : Matrix Elem) :
  g1 <> [] ->
  gate_latex str (g1 ++ g2)%list
  = slice_0_neg (length end_pmatrix) (gate_latex str g1)
    ++ (later_rows str g2 ++ end_pmatrix).
Proof.
  intros Hne. destruct g1 as [|line rest]; [now elim Hne|].
  rewrite !gate_latex_row_by_row.
  change (row_by_row str ((line :: rest) ++ g2)%list)
    with ((first_row str line ++ later_rows str (rest ++ g2)%list)
          ++ end_pmatrix).
  change (row_by_row str (line :: rest))
    with ((first_row str line ++ later_rows str rest) ++ end_pmatrix).
  rewrite slice_0_neg_append, later_rows_app.
  now rewrite !append_assoc.
Qed.

Lemma fold_right_sep_app (sep : string) (l1 l2 : list string) :
  fold_right (fun t s => sep ++ (t ++ s)) "" (l1 ++ l2)%list
  = fold_right (fun t s => sep ++ (t ++ s)) "" l1
    ++ fold_right (fun t s => sep ++ (t ++ s)) "" l2.
Proof.
  induction l1 as [|t l1 IH]; [reflexivity|].
  cbn [fold_right List.app]. rewrite IH. now rewrite !append_assoc.
Qed.

(** Joining two non-empty lists of pieces at once or one after the
    other. *)
Lemma concat_app (sep : string) (l1 l2 : list string) :
  l1 <> [] -> l2 <> [] ->
  String.concat sep (l1 ++ l2)%list
  = String.concat sep l1 ++ (sep ++ String.concat sep l2).
Proof.
  intros H1 H2.
  destruct l1 as [|t1 l1]; [now elim H1|].
  destruct l2 as [|t2 l2]; [now elim H2|].
  change ((t1 :: l1) ++ t2 :: l2)%list with (t1 :: (l1 ++ t2 :: l2))%list.
  rewrite !concat_cons, fold_right_sep_app.
  cbn [fold_right]. now rewrite !append_assoc.
Qed.

Lemma last_app (A : Type) (l1 l2 : list A) (d : A) :
  last (l1 ++ l2)%list d = last l2 (last l1 d).
Proof.
  revert d. induction l1 as [|x l1 IH]; intros d; [reflexivity|].
  change ((x :: l1) ++ l2)%list with (x :: (l1 ++ l2))%list.
  now rewrite !last_cons, IH.
Qed.

Lemma map_injective (A B : Type) (f : A -> B) :
  (forall a b, f a = f b -> a = b) ->
  forall l1 l2 : list A, map f l1 = map f l2 -> l1 = l2.
Proof.
  intros Hf. induction l1 as [|a l1 IH]; intros [|b l2] H;
    try discriminate; [reflexivity|].
  cbn [map] in H. injection H as Hab Hl.
  now rewrite (Hf _ _ Hab), (IH _ Hl).
Qed.

Lemma map_length_map (A B : Type) (f : A -> B) (g : list (list A)) :
  map (@List.length B) (map (map f) g) = map (@List.length A) g.
Proof.
  rewrite map_map. apply map_ext. intros l. apply length_map.
Qed.

(** The outer loop leaves in [element] the last element it met. *)
Lemma fold_exec_line_element (gate : Matrix Elem) (ns : namespace Elem) :
  v_element (fold_left (exec_line str) gate ns)
  = last (map Some (List.concat gate)) (v_element ns).
Proof.
  revert ns. induction gate as [|line gate IH]; intros ns; [reflexivity|].
  cbn [fold_left List.concat]. rewrite IH.
  destruct (exec_line_spec _ str ns line) as (_ & _ & _ & He & _).
  cbv zeta in He. now rewrite He, map_app, last_app.
Qed.

(** X3: when two matrices each have a row and an element in every row, the
    display of the one stacked on the other has as its body the two bodies
    with one row delimiter between them. *)
Theorem gate_latex_stack (g1 g2 : Matrix Elem) :
  g1 <> [] -> forallb nonempty_row g1 = true ->
  g2 <> [] -> forallb nonempty_row g2 = true ->
  exists b1 b2 : string,
    body_of (gate_latex str g1) = Some b1
    /\ body_of (gate_latex str g2) = Some b2
    /\ body_of (gate_latex str (g1 ++ g2)%list)
       = Some (b1 ++ (row_delim ++ b2)).
Proof.
  intros Hne1 Hr1 Hne2 Hr2.
  exists (String.concat row_delim (map (row_text str) g1)).
  exists (String.concat row_delim (map (row_text str) g2)).
  assert (g1 ++ g2 <> [])%list as Hne.
  { destruct g1; [now elim Hne1 | discriminate]. }
  assert (forallb nonempty_row (g1 ++ g2)%list = true) as Hr.
  { rewrite forallb_app, Hr1, Hr2. reflexivity. }
  rewrite (gate_latex_joined _ str g1 Hne1 Hr1).
  rewrite (gate_latex_joined _ str g2 Hne2 Hr2).
  rewrite (gate_latex_joined _ str _ Hne Hr).
  rewrite !body_of_wrapped, map_app.
  repeat split. f_equal. apply concat_app.
  - destruct g1; [now elim Hne1 | discriminate].
  - destruct g2; [now elim Hne2 | discriminate].
Qed.

(** X4: a row added under a matrix that has a row goes in front of the
    suffix: after a row delimiter when it has an element, and as one lone
    backslash when it has none, so that the output then ends with
    [\\end{pmatrix}]. *)
Theorem gate_latex_append_row (gate : Matrix Elem) (line : list Elem) :
  gate <> [] ->
  gate_latex str (gate ++ [line])%list
  = slice_0_neg (length end_pmatrix) (gate_latex str gate)
    ++ (match line with
        | [] => "\"
        | _ :: _ => row_delim ++ row_text str line
        end ++ end_pmatrix)
  /\ (line = [] ->
      endswith "\\end{pmatrix}" (gate_latex str (gate ++ [line])%list)
      = true).
Proof.
  intros Hne.
  assert (gate_latex str (gate ++ [line])%list
          = slice_0_neg (length end_pmatrix) (gate_latex str gate)
            ++ (later_row str line ++ end_pmatrix)) as H.
  { rewrite (gate_latex_app gate [line] Hne).
    cbn [later_rows fold_right]. now rewrite append_nil_r. }
  split; [exact H|].
  intros ->. rewrite H. cbn [later_row].
  apply endswith_append.
Qed.

(** X5: among matrices that have a row, an element in every row and
    renderings free of delimiter characters, the display tells matrices
    apart as far as [str] does: two with the same output have the same
    renderings row by row, hence the same row lengths, and are equal when
    [str] is injective. *)
Theorem gate_latex_injective (g1 g2 : Matrix Elem) :
  g1 <> [] -> forallb nonempty_row g1 = true -> clean str g1 = true ->
  g2 <> [] -> forallb nonempty_row g2 = true -> clean str g2 = true ->
  gate_latex str g1 = gate_latex str g2 ->
  map (map str) g1 = map (map str) g2
  /\ map (@List.length Elem) g1 = map (@List.length Elem) g2
  /\ ((forall a b, str a = str b -> a = b) -> g1 = g2).
Proof.
  intros Hne1 Hr1 Hc1 Hne2 Hr2 Hc2 Hout.
  pose proof (entries_of_gate_latex _ str g1 Hne1 Hr1 Hc1) as E1.
  pose proof (entries_of_gate_latex _ str g2 Hne2 Hr2 Hc2) as E2.
  rewrite Hout, E2 in E1. injection E1 as E.
  split; [now symmetry | split].
  - rewrite <- (map_length_map _ _ str g1), <- (map_length_map _ _ str g2).
    now rewrite E.
  - intros Hinj. symmetry.
    apply (map_injective _ _ (map str)); [|exact E].
    apply map_injective, Hinj.
Qed.

(** X6: running the cell again changes nothing but the display: the first
    assignment starts [gate_latex] afresh, so the second run leaves the
    same string as the first, [gate] is still as it was, and the string
    has been displayed twice. *)
Theorem run_cell_twice (ns : namespace Elem) :
  v_gate_latex (run_cell str (run_cell str ns))
  = v_gate_latex (run_cell str ns)
  /\ v_gate (run_cell str (run_cell str ns)) = v_gate ns
  /\ v_displayed (run_cell str (run_cell str ns))
     = (v_displayed ns
        ++ [v_gate_latex (run_cell str ns);
            v_gate_latex (run_cell str ns)])%list.
Proof.
  destruct (run_cell_spec _ str ns) as (Hg1 & Hs1 & _ & Hd1).
  destruct (run_cell_spec _ str (run_cell str ns)) as (Hg2 & Hs2 & _ & Hd2).
  rewrite Hs2, Hg2, Hd2, Hs1, Hg1, Hd1. repeat apply conj; try reflexivity.
  now rewrite <- app_assoc.
Qed.

(** X7: the loop variables stay bound after the cell: [line] holds the
    last row of [gate] and [element] the last element of the matrix read
    row by row; a matrix without a row leaves [line] as it was, one
    without an element leaves [element] as it was. *)
Theorem run_cell_loop_variables (ns : namespace Elem) :
  v_line (run_cell str ns) = last (map Some (v_gate ns)) (v_line ns)
  /\ v_element (run_cell str ns)
     = last (map Some (List.concat (v_gate ns))) (v_element ns)
  /\ (v_gate ns = [] -> v_line (run_cell str ns) = v_line ns)
  /\ (List.concat (v_gate ns) = [] ->
      v_element (run_cell str ns) = v_element ns).
Proof.
  assert (v_element (run_cell str ns)
          = last (map Some (List.concat (v_gate ns))) (v_element ns)) as He.
  { unfold run_cell.
    cbn [exec_display set_gate_latex v_gate v_element].
    exact (fold_exec_line_element (v_gate ns)
             (set_gate_latex begin_pmatrix ns)). }
  destruct (run_cell_spec _ str ns) as (_ & _ & Hl & _).
  repeat apply conj.
  - exact Hl.
  - exact He.
  - intros H. now rewrite Hl, H.
  - intros H. now rewrite He, H.
Qed.

(** After the first row every row starts its share of the output with a
    backslash, and so does the suffix. *)
Lemma later_rows_end_backslash (rest : list (list Elem)) :
  exists t : string,
    later_rows str rest ++ end_pmatrix = String "\"%char t.
Proof.
  destruct rest as [|line rest].
  - now exists "end{pmatrix}".
  - cbn [later_rows fold_right]. fold (later_rows str rest).
    destruct line as [|element line]; cbn [later_row].
    + now exists (later_rows str rest ++ end_pmatrix).
    + now exists ("\" ++ (row_text str (element :: line)
                          ++ later_rows str rest) ++ end_pmatrix).
Qed.

(** X8: the output starts with the prefix exactly when the matrix has a
    first row and that row has an element; with no row, or a first row
    without elements, the slices have cut into the prefix. *)
Theorem gate_latex_prefix_iff (gate : Matrix Elem) :
  prefix begin_pmatrix (gate_latex str gate) = true
  <-> exists line rest, gate = line :: rest /\ line <> [].
Proof.
  rewrite gate_latex_row_by_row. split.
  - destruct gate as [|[|element line] rest].
    + discriminate.
    + unfold row_by_row. cbn [first_row]. rewrite append_assoc.
      destruct (later_rows_end_backslash rest) as [t ->]. discriminate.
    + intros _. exists (element :: line), rest. split; [reflexivity|].
      discriminate.
  - intros (line & rest & -> & Hne).
    destruct line as [|element line]; [now elim Hne|].
    unfold row_by_row. cbn [first_row]. rewrite !append_assoc.
    apply prefix_append.
Qed.

End Composition.

(** *** The theorems on composition at concrete matrices *)

(** Rows of two and one stacked on a three-by-two matrix. *)
Lemma gate_latex_stack_witness :
  Notebook.ragged <> []
  /\ forallb nonempty_row Notebook.ragged = true
  /\ Notebook.three_by_two <> []
  /\ forallb nonempty_row Notebook.three_by_two = true
  /\ exists b1 b2 : string,
       body_of (gate_latex PyComplex.str Notebook.ragged) = Some b1
       /\ body_of (gate_latex PyComplex.str Notebook.three_by_two) = Some b2
       /\ body_of
            (gate_latex PyComplex.str
               (Notebook.ragged ++ Notebook.three_by_two)%list)
          = Some (b1 ++ (row_delim ++ b2)).
Proof.
  assert (Notebook.ragged <> []) as H1 by discriminate.
  assert (forallb nonempty_row Notebook.ragged = true) as H2 by reflexivity.
  assert (Notebook.three_by_two <> []) as H3 by discriminate.
  assert (forallb nonempty_row Notebook.three_by_two = true) as H4
    by reflexivity.
  repeat apply conj; try assumption.
  exact (gate_latex_stack _ PyComplex.str _ _ H1 H2 H3 H4).
Defined.

(** A row without elements under the unitary of the notebook. *)
Lemma gate_latex_append_row_witness :
  Notebook.ZX <> []
  /\ gate_latex PyComplex.str (Notebook.ZX ++ [[]])%list
     = "\begin{pmatrix}0j&(1+0j)&0j&0j\\(1+0j)&0j&0j&0j\\0j&0j&0j&(-1+0j)\\0j&0j&(-1+0j)&0j\\end{pmatrix}".
Proof.
  assert (Notebook.ZX <> []) as H by discriminate.
  split; [exact H|].
  exact (eq_trans
           (proj1 (gate_latex_append_row _ PyComplex.str Notebook.ZX [] H))
           eq_refl).
Defined.

(** The unitary of the notebook against itself. *)
Lemma gate_latex_injective_witness :
  Notebook.ZX <> []
  /\ forallb nonempty_row Notebook.ZX = true
  /\ clean PyComplex.str Notebook.ZX = true
  /\ gate_latex PyComplex.str Notebook.ZX
     = gate_latex PyComplex.str (map (map PyComplex.of_real) Notebook.ZX_values)
  /\ map (@List.length PyComplex.complex) Notebook.ZX
     = map (@List.length PyComplex.complex)
         (map (map PyComplex.of_real) Notebook.ZX_values).
Proof.
  assert (Notebook.ZX <> []) as H1 by discriminate.
  assert (forallb nonempty_row Notebook.ZX = true) as H2 by reflexivity.
  assert (clean PyComplex.str Notebook.ZX = true) as H3 by reflexivity.
  assert (gate_latex PyComplex.str Notebook.ZX
          = gate_latex PyComplex.str
              (map (map PyComplex.of_real) Notebook.ZX_values)) as H4
    by reflexivity.
  repeat apply conj; try assumption.
  exact (proj1 (proj2 (gate_latex_injective _ PyComplex.str _ _
                         H1 H2 H3 H1 H2 H3 H4))).
Defined.

(** ** What a run of the cell changes *)

Section RunEffects.

Variable Elem : Type.
Variable str : Elem -> string.

(** C8, as amended: the string a run leaves in [gate_latex] is a function
    of [gate] alone, so two runs on the same matrix give equal strings
    whatever the names held before; and the state after a run is wholly
    fixed: [gate] as it was, that string in [gate_latex], the loop
    variables [line] and [element] bound to the last row and to the last
    element of the matrix (as they were when there is none), and the
    string shown once more on the display. *)
Theorem run_cell_effects (ns1 ns2 : namespace Elem) :
  v_gate ns1 = v_gate ns2 ->
  v_gate_latex (run_cell str ns1) = v_gate_latex (run_cell str ns2)
  /\ format str (v_gate ns1) = Returned (v_gate_latex (run_cell str ns1))
  /\ run_cell str ns1
     = mkns (v_gate ns1)
            (gate_latex str (v_gate ns1))
            (last (map Some (v_gate ns1)) (v_line ns1))
            (last (map Some (List.concat (v_gate ns1))) (v_element ns1))
            (v_displayed ns1 ++ [gate_latex str (v_gate ns1)])%list.
Proof.
  intros Hgate.
  destruct (run_cell_spec _ str ns1) as (Hg1 & Hs1 & Hl1 & Hd1).
  destruct (run_cell_spec _ str ns2) as (_ & Hs2 & _ & _).
  assert (v_element (run_cell str ns1)
          = last (map Some (List.concat (v_gate ns1))) (v_element ns1))
    as He1.
  { unfold run_cell. cbn [exec_display set_gate_latex v_gate v_element].
    exact (fold_exec_line_element _ str (v_gate ns1)
             (set_gate_latex begin_pmatrix ns1)). }
  split; [now rewrite Hs1, Hs2, Hgate | split].
  - unfold format. now rewrite Hs1.
  - destruct (run_cell str ns1) as [g s l e d].
    cbn [v_gate v_gate_latex v_line v_element v_displayed] in *.
    now rewrite Hg1, Hs1, Hl1, He1, Hd1.
Qed.

End RunEffects.

(** Two runs on the unitary of the notebook, from different names. *)
Lemma run_cell_effects_witness :
  v_gate Notebook.fresh_names = v_gate Notebook.used_names
  /\ v_gate_latex (run_cell PyComplex.str Notebook.fresh_names)
     = v_gate_latex (run_cell PyComplex.str Notebook.used_names)
  /\ run_cell PyComplex.str Notebook.used_names
     = mkns Notebook.ZX Notebook.recorded_output
         (Some [PyComplex.of_real 0; PyComplex.of_real 0;
                PyComplex.of_real (-1); PyComplex.of_real 0])
         (Some (PyComplex.of_real 0))
         ["shown before"; Notebook.recorded_output].
Proof.
  assert (v_gate Notebook.fresh_names = v_gate Notebook.used_names) as H
    by reflexivity.
  split; [exact H | split].
  - exact (proj1 (run_cell_effects _ PyComplex.str _ _ H)).
  - reflexivity.
Defined.

(** C8, as stated, fails on the unitary of the notebook: the run is not
    without other effect, since it leaves [line] and [element], unbound
    before, bound to the last row and to its last element. *)
Lemma no_other_effect_fails :
  v_line Notebook.fresh_names = None
  /\ v_line (run_cell PyComplex.str Notebook.fresh_names)
     = Some [PyComplex.of_real 0; PyComplex.of_real 0;
             PyComplex.of_real (-1); PyComplex.of_real 0]
  /\ v_element Notebook.fresh_names = None
  /\ v_element (run_cell PyComplex.str Notebook.fresh_names)
     = Some (PyComplex.of_real 0)
  /\ ~ no_other_effect PyComplex.str Notebook.fresh_names.
Proof.
  repeat apply conj; try reflexivity.
  intros (_ & Hl & _). vm_compute in Hl. discriminate Hl.
Qed.
